(** * The Conan recipe of space-invaders: [conanfile.py]

    A shallow embedding of the recipe class [MachuEmuPackageTest] and of its
    [generate] method, which fills [tc.cache_variables] with the runtime
    directories of the resolved dependencies.

    The recipe reads three things of the Conan object model:
    - [self.settings.os], compared with a string;
    - [self.dependencies[name]], a subscript that raises when [name] was not
      resolved;
    - of a dependency, [options.<name>] (raises when the option is not
      declared) and [cpp_info.bindirs[0]] (raises on an empty list).
    Every write goes to [tc.cache_variables], a dictionary that starts empty
    and keeps insertion order.

    An option is read only as the condition of an [if], so a declared option
    is kept as its truth value.  [CMakeDeps(self).generate()] and the final
    [tc.generate()] write build files from what they are given; what the
    recipe decides is the content of the dictionary, and that is what is
    modelled, together with whether the final call is reached. *)

From Stdlib Require Import String Ascii List Bool.
From stdpp Require Import base option strings gmap.
Import ListNotations.

Local Open Scope string_scope.

(** ** Python values the recipe handles *)

(** The exceptions that the subscripts and attribute reads of [generate] can
    raise; the recipe catches none and raises none of its own. *)
Inductive exn : Type :=
| KeyError (name : string)         (* self.dependencies[name], name unresolved *)
| ConanException (option : string) (* options.<option>, option not declared *)
| IndexError.                      (* bindirs[0], bindirs empty *)

#[global] Instance exn_eq_dec : EqDecision exn.
Proof. solve_decision. Defined.

Inductive result (A : Type) : Type :=
| Ok (a : A)
| Raise (e : exn).
Arguments Ok {A} a.
Arguments Raise {A} e.

(** [str.replace(old, new)] for a one-character [old] and [new], the only
    form the recipe uses: every occurrence is replaced. *)
Fixpoint replace (old new : ascii) (s : string) : string :=
  match s with
  | EmptyString => EmptyString
  | String c r => String (if Ascii.eqb c old then new else c) (replace old new r)
  end.

Definition backslash : ascii := ascii_of_nat 92.
Definition slash : ascii := ascii_of_nat 47.

(** ** The Conan object model, as far as the recipe reads it *)

Record CppInfo : Type := { bindirs : list string }.

Record Dependency : Type := {
  options : gmap string bool;
  cpp_info : CppInfo
}.

Record Settings : Type := {
  os : string;
  compiler : string;
  build_type : string;
  arch : string
}.

Record ConanFile : Type := {
  settings : Settings;
  requires : list string;
  dependencies : gmap string Dependency
}.

(** [tc.cache_variables]: a [dict] of strings, in insertion order. *)
Definition CacheVariables : Type := list (string * string).

Fixpoint getitem (k : string) (d : CacheVariables) : option string :=
  match d with
  | [] => None
  | (k', v) :: r => if String.eqb k k' then Some v else getitem k r
  end.

(** [d[k] = v]: overwrites in place when [k] is there, appends otherwise. *)
Fixpoint setitem (k v : string) (d : CacheVariables) : CacheVariables :=
  match d with
  | [] => [(k, v)]
  | (k', v') :: r =>
      if String.eqb k k' then (k', v) :: r else (k', v') :: setitem k v r
  end.

Definition keys (d : CacheVariables) : list string := map fst d.

(** [k in d] *)
Definition contains (k : string) (d : CacheVariables) : bool :=
  match getitem k d with
  | Some _ => true
  | None => false
  end.

(** ** Statements that may raise, over the dictionary being filled *)

Definition M (A : Type) : Type := CacheVariables -> result A * CacheVariables.

Definition ret {A} (a : A) : M A := fun cv => (Ok a, cv).

Definition raise {A} (e : exn) : M A := fun cv => (Raise e, cv).

Definition bind {A B} (m : M A) (f : A -> M B) : M B :=
  fun cv =>
    match m cv with
    | (Ok a, cv') => f a cv'
    | (Raise e, cv') => (Raise e, cv')
    end.

Notation "x <- m ;; k" := (bind m (fun x => k))
  (at level 100, m at level 99, right associativity).
Notation "m ;;; k" := (bind m (fun _ => k))
  (at level 100, right associativity).

(** [tc.cache_variables[k] = v] *)
Definition set_cache_variable (k v : string) : M unit :=
  fun cv => (Ok tt, setitem k v cv).

(** [self.dependencies[name]] *)
Definition dependency (self : ConanFile) (name : string) : M Dependency :=
  match dependencies self !! name with
  | Some d => ret d
  | None => raise (KeyError name)
  end.

(** [d.options.<name>], read for its truth value *)
Definition option_value (d : Dependency) (name : string) : M bool :=
  match options d !! name with
  | Some b => ret b
  | None => raise (ConanException name)
  end.

(** [d.cpp_info.bindirs[0]] *)
Definition bindirs0 (d : Dependency) : M string :=
  match bindirs (cpp_info d) with
  | p :: _ => ret p
  | [] => raise IndexError
  end.

(** ** The recipe *)

Module MachuEmuPackageTest.

Definition requirements (self : ConanFile) : ConanFile :=
  {| settings := settings self;
     requires := (requires self
       ++ ["mach_emu/1.6.0"; "nlohmann_json/3.11.3"; "sdl/2.28.5"; "sdl_mixer/2.8.0"])%list;
     dependencies := dependencies self |}.

(** The body of [generate] between [tc = CMakeToolchain(self)] and
    [tc.generate()], statement by statement.  In an assignment the right-hand
    side is evaluated before the dictionary is touched, and [and] evaluates
    its operands left to right, stopping at the first false one. *)
Definition generate_body (self : ConanFile) : M unit :=
  (d <- dependency self "mach_emu";;
   p <- bindirs0 d;;
   set_cache_variable "machEmuBinDir" (replace backslash slash p));;;

  (d <- dependency self "sdl";;
   shared <- option_value d "shared";;
   if shared then
     d <- dependency self "sdl";;
     p <- bindirs0 d;;
     set_cache_variable "sdlBinDir" (replace backslash slash p)
   else ret tt);;;

  (d <- dependency self "sdl_mixer";;
   shared <- option_value d "shared";;
   if shared then
     d <- dependency self "sdl_mixer";;
     p <- bindirs0 d;;
     set_cache_variable "sdlMixerBinDir" (replace backslash slash p)
   else ret tt);;;

  (cond <-
     (if String.eqb (os (settings self)) "Windows" then
        d <- dependency self "mach_emu";;
        with_zlib <- option_value d "with_zlib";;
        if with_zlib then
          d <- dependency self "zlib";;
          option_value d "shared"
        else ret false
      else ret false);;
   if cond then
     d <- dependency self "zlib";;
     p <- bindirs0 d;;
     set_cache_variable "zlibBinDir" (replace backslash slash p)
   else ret tt).

(** [generate]: [tc.cache_variables] starts empty; the result is the outcome
    together with the dictionary as the body left it. *)
Definition generate (self : ConanFile) : result unit * CacheVariables :=
  generate_body self [].

(** What [tc.generate()] hands to the native build: the dictionary when the
    body ran to its end, nothing when it raised (the call is not reached). *)
Definition emitted (self : ConanFile) : CacheVariables :=
  match generate self with
  | (Ok _, cv) => cv
  | (Raise _, _) => []
  end.

End MachuEmuPackageTest.

Import MachuEmuPackageTest.

(** ** What the claims speak about *)

(** The resolved value of option [opt] of dependency [dep], when both exist. *)
Definition resolved_option (self : ConanFile) (dep opt : string) : option bool :=
  match dependencies self !! dep with
  | Some d => options d !! opt
  | None => None
  end.

(** The variables of [generate], each with the dependency it locates. *)
Definition variables : list (string * string) :=
  [ ("machEmuBinDir", "mach_emu"); ("sdlBinDir", "sdl");
    ("sdlMixerBinDir", "sdl_mixer"); ("zlibBinDir", "zlib") ].

(** The statement of [generate] for a multimedia dependency runs to its end:
    the dependency is resolved, declares [shared], and has a first binary
    directory when it is shared. *)
Definition statement_ok (self : ConanFile) (name : string) : bool :=
  match dependencies self !! name with
  | Some d =>
      match options d !! "shared" with
      | Some true => match bindirs (cpp_info d) with [] => false | _ :: _ => true end
      | Some false => true
      | None => false
      end
  | None => false
  end.

(** The guard under which [generate] assigns the variable of dependency
    [name]: none for mach_emu, [shared] for sdl and sdl_mixer, the triple
    condition for zlib. *)
Definition would_emit (self : ConanFile) (name : string) : bool :=
  if String.eqb name "mach_emu" then true
  else if String.eqb name "sdl" then
    bool_decide (resolved_option self "sdl" "shared" = Some true)
  else if String.eqb name "sdl_mixer" then
    bool_decide (resolved_option self "sdl_mixer" "shared" = Some true)
  else if String.eqb name "zlib" then
    String.eqb (os (settings self)) "Windows"
    && bool_decide (resolved_option self "mach_emu" "with_zlib" = Some true)
    && bool_decide (resolved_option self "zlib" "shared" = Some true)
  else false.

(** [self] with the metadata of dependency [name] replaced by [z], or removed
    when [z] is [None]. *)
Definition set_dependency (name : string) (z : option Dependency) (self : ConanFile)
  : ConanFile :=
  {| settings := settings self;
     requires := requires self;
     dependencies := partial_alter (fun _ => z) name (dependencies self) |}.

(** [self] with option [opt] of dependency [dep] set to [w], or undeclared
    when [w] is [None]. *)
Definition set_option (dep opt : string) (w : option bool) (self : ConanFile)
  : ConanFile :=
  {| settings := settings self;
     requires := requires self;
     dependencies :=
       alter (fun d => {| options := partial_alter (fun _ => w) opt (options d);
                          cpp_info := cpp_info d |})
             dep (dependencies self) |}.

(** What [generate] can read of a dependency: the two options it tests and
    the first binary directory. *)
Definition read_of (d : Dependency) : option bool * option bool * option string :=
  (options d !! "shared", options d !! "with_zlib", head (bindirs (cpp_info d))).

(** What [generate] can read of a recipe: the test on the operating system
    and the four dependencies it names. *)
Definition reads (self : ConanFile)
  : bool * list (option (option bool * option bool * option string)) :=
  (String.eqb (os (settings self)) "Windows",
   map (fun name => read_of <$> dependencies self !! name)
       ["mach_emu"; "sdl"; "sdl_mixer"; "zlib"]).

(** A path is normalised when no character of it is a backslash. *)
Definition normalised (s : string) : Prop :=
  forall i, String.get i s <> Some backslash.

(** [preserves P m]: statement [m] keeps [P] true of the dictionary, whether
    it returns or raises. *)
Definition preserves {A} (P : CacheVariables -> Prop) (m : M A) : Prop :=
  forall cv, P cv -> P (snd (m cv)).

(** Every value in the dictionary is a normalised path. *)
Definition values_normalised (cv : CacheVariables) : Prop :=
  forall k v, getitem k cv = Some v -> normalised v.

(** ** The run of [generate] in closed form *)

(** The first statement of [generate] runs to its end: mach_emu is resolved
    and has a first binary directory. *)
Definition mach_emu_ok (self : ConanFile) : bool :=
  match dependencies self !! "mach_emu" with
  | Some d => match bindirs (cpp_info d) with [] => false | _ :: _ => true end
  | None => false
  end.

(** The last statement of [generate] runs to its end: off Windows always; on
    Windows when [with_zlib] is declared and, if it is true, zlib is resolved,
    declares [shared] and has a first binary directory when it is shared. *)
Definition zlib_ok (self : ConanFile) : bool :=
  if String.eqb (os (settings self)) "Windows" then
    match resolved_option self "mach_emu" "with_zlib" with
    | Some true => statement_ok self "zlib"
    | Some false => true
    | None => false
    end
  else true.

(** The entry that an assignment of [generate] stores under [key] for
    dependency [name]. *)
Definition entry (self : ConanFile) (key name : string) : CacheVariables :=
  match dependencies self !! name with
  | Some d =>
      match bindirs (cpp_info d) with
      | p :: _ => [(key, replace backslash slash p)]
      | [] => []
      end
  | None => []
  end.

(** The entries of the four assignments, each under its guard, in the order
    of the source. *)
Definition assignments (self : ConanFile) : CacheVariables :=
  (entry self "machEmuBinDir" "mach_emu"
   ++ (if would_emit self "sdl" then entry self "sdlBinDir" "sdl" else [])
   ++ (if would_emit self "sdl_mixer" then entry self "sdlMixerBinDir" "sdl_mixer" else [])
   ++ (if would_emit self "zlib" then entry self "zlibBinDir" "zlib" else []))%list.



(** Dependency [name] is resolved with an empty [bindirs]. *)
Definition empty_bindirs (self : ConanFile) (name : string) : bool :=
  match dependencies self !! name with
  | Some d => match bindirs (cpp_info d) with [] => true | _ :: _ => false end
  | None => false
  end.

(** [self] with the [bindirs] of dependency [name] replaced by [dirs]. *)
Definition set_bindirs (name : string) (dirs : list string) (self : ConanFile)
  : ConanFile :=
  {| settings := settings self;
     requires := requires self;
     dependencies :=
       alter (fun d => {| options := options d; cpp_info := {| bindirs := dirs |} |})
             name (dependencies self) |}.

(** ** Concrete configurations *)

Module Examples.

Definition dep (opts : list (string * bool)) (dirs : list string) : Dependency :=
  {| options := list_to_map opts; cpp_info := {| bindirs := dirs |} |}.

Definition conanfile (os : string) (deps : list (string * Dependency)) : ConanFile :=
  {| settings := {| os := os; compiler := "gcc"; build_type := "Release"; arch := "x86_64" |};
     requires := [];
     dependencies := list_to_map deps |}.

(** A Windows path, written with character 92 as separator. *)
Definition win_path (drive : string) (parts : list string) : string :=
  fold_left (fun acc part => acc ++ String backslash part) parts drive.

(** OS=Linux, sdl and sdl_mixer shared, mach_emu.with_zlib=true. *)
Definition linux : ConanFile :=
  conanfile "Linux"
    [ ("mach_emu", dep [("with_zlib", true)] ["/p/mach_emu/bin"]);
      ("nlohmann_json", dep [] []);
      ("sdl", dep [("shared", true)] ["/p/sdl/bin"]);
      ("sdl_mixer", dep [("shared", true)] ["/p/sdl_mixer/bin"]);
      ("zlib", dep [("shared", true)] ["/p/zlib/bin"]) ].

(** The same on Windows, with backslash paths. *)
Definition windows : ConanFile :=
  conanfile "Windows"
    [ ("mach_emu", dep [("with_zlib", true)] [win_path "C:" ["p"; "mach_emu"; "bin"]]);
      ("nlohmann_json", dep [] []);
      ("sdl", dep [("shared", true)] [win_path "C:" ["p"; "sdl"; "bin"]]);
      ("sdl_mixer", dep [("shared", true)] [win_path "C:" ["p"; "sdl_mixer"; "bin"]]);
      ("zlib", dep [("shared", true)] [win_path "C:" ["p"; "zlib"; "bin"]]) ].

(** [linux] without the metadata of one dependency. *)
Definition without (name : string) : ConanFile := set_dependency name None linux.

(** sdl and sdl_mixer linked statically. *)
Definition static : ConanFile :=
  conanfile "Linux"
    [ ("mach_emu", dep [("with_zlib", false)] ["/p/mach_emu/bin"]);
      ("nlohmann_json", dep [] []);
      ("sdl", dep [("shared", false)] []);
      ("sdl_mixer", dep [("shared", false)] []) ].

(** mach_emu whose first binary directory is the empty string. *)
Definition empty_path : ConanFile :=
  set_dependency "mach_emu" (Some (dep [("with_zlib", false)] [""])) static.

(** mach_emu without any binary directory. *)
Definition no_bindirs : ConanFile :=
  set_dependency "mach_emu" (Some (dep [("with_zlib", true)] [])) linux.

(** sdl shared, without any binary directory. *)
Definition sdl_no_bindirs : ConanFile :=
  set_dependency "sdl" (Some (dep [("shared", true)] [])) linux.

End Examples.

Module Cases.
Import Examples.

(** [linux] with a second binary directory, another option and other
    settings; nlohmann_json is not resolved. *)
Definition linux_more : ConanFile :=
  {| settings := {| os := "Macos"; compiler := "apple-clang"; build_type := "Debug"; arch := "armv8" |};
     requires := [];
     dependencies := list_to_map
       [ ("mach_emu", dep [("with_zlib", true); ("with_python", false)]
                          ["/p/mach_emu/bin"; "/p/mach_emu/tools"]);
         ("sdl", dep [("shared", true); ("opengl", false)] ["/p/sdl/bin"]);
         ("sdl_mixer", dep [("shared", true)] ["/p/sdl_mixer/bin"; "/p/sdl_mixer/extra"]);
         ("zlib", dep [("shared", true); ("fPIC", true)] ["/p/zlib/bin"]) ] |}.

(** Windows, with mach_emu built without zlib. *)
Definition windows_no_zlib : ConanFile :=
  set_option "mach_emu" "with_zlib" (Some false) windows.

(** sdl resolved without a [shared] option. *)
Definition sdl_no_shared : ConanFile :=
  set_dependency "sdl" (Some (dep [] ["/p/sdl/include"])) linux.

End Cases.

(** * Strings and dictionaries *)

Section Replace.
Variables old new : ascii.

Lemma replace_length s : String.length (replace old new s) = String.length s.
Proof. induction s as [|c r IH]; simpl; [reflexivity | now rewrite IH]. Qed.

Lemma replace_get s i :
  String.get i (replace old new s)
  = (fun c => if Ascii.eqb c old then new else c) <$> String.get i s.
Proof.
  revert i; induction s as [|c r IH]; intros i; simpl; [reflexivity|].
  destruct i as [|i]; [reflexivity | apply IH].
Qed.

Lemma replace_removes s i : old <> new -> String.get i (replace old new s) <> Some old.
Proof.
  intros Hne. rewrite replace_get.
  destruct (String.get i s) as [c|]; simpl; [|discriminate].
  destruct (Ascii.eqb_spec c old); congruence.
Qed.

Lemma replace_id s : (forall i, String.get i s <> Some old) -> replace old new s = s.
Proof.
  induction s as [|c r IH]; intros H; simpl; [reflexivity|].
  destruct (Ascii.eqb_spec c old) as [->|_].
  - now destruct (H 0).
  - f_equal. apply IH. intros i. apply (H (S i)).
Qed.

Lemma replace_empty s : replace old new s = EmptyString <-> s = EmptyString.
Proof. destruct s; simpl; split; congruence. Qed.
End Replace.

Lemma backslash_not_slash : backslash <> slash.
Proof. discriminate. Qed.

Lemma replace_normalised p : normalised (replace backslash slash p).
Proof. intros i. apply replace_removes, backslash_not_slash. Qed.

Section Dict.
Implicit Types (d : CacheVariables) (k v : string).

Lemma getitem_setitem_eq k v d : getitem k (setitem k v d) = Some v.
Proof.
  induction d as [|[k' v'] r IH]; simpl.
  - now rewrite String.eqb_refl.
  - destruct (String.eqb_spec k k') as [->|Hne]; simpl.
    + now rewrite String.eqb_refl.
    + destruct (String.eqb_spec k k'); [contradiction | exact IH].
Qed.

Lemma getitem_setitem_ne k k0 v d : k0 <> k -> getitem k0 (setitem k v d) = getitem k0 d.
Proof.
  intros Hne. induction d as [|[k' v'] r IH]; simpl.
  - destruct (String.eqb_spec k0 k); [contradiction | reflexivity].
  - destruct (String.eqb_spec k k') as [->|Hkk']; simpl.
    + destruct (String.eqb_spec k0 k'); [contradiction | reflexivity].
    + now rewrite IH.
Qed.

Lemma getitem_setitem k k0 v v0 d :
  getitem k0 (setitem k v d) = Some v0 ->
  (k0 = k /\ v0 = v) \/ getitem k0 d = Some v0.
Proof.
  destruct (String.eqb_spec k0 k) as [->|Hne].
  - rewrite getitem_setitem_eq. intros [= ->]. now left.
  - rewrite getitem_setitem_ne by assumption. now right.
Qed.

Lemma keys_setitem k v d :
  keys (setitem k v d) = if contains k d then keys d else (keys d ++ [k])%list.
Proof.
  unfold contains. induction d as [|[k' v'] r IH]; simpl; [reflexivity|].
  destruct (String.eqb_spec k k') as [->|Hne]; simpl; [reflexivity|].
  rewrite IH. now destruct (getitem k r).
Qed.

Lemma getitem_None_keys k d : getitem k d = None -> ~ In k (keys d).
Proof.
  induction d as [|[k' v'] r IH]; simpl; [tauto|].
  destruct (String.eqb_spec k k') as [->|Hne]; [discriminate|].
  intros H [Heq|Hin]; [congruence | now apply IH].
Qed.

Lemma NoDup_keys_setitem k v d : NoDup (keys d) -> NoDup (keys (setitem k v d)).
Proof.
  intros Hd. rewrite keys_setitem. unfold contains.
  destruct (getitem k d) eqn:Hk; [assumption|].
  apply NoDup_app; repeat split; try assumption.
  - intros x Hx [<-|[]]%list_elem_of_In. apply list_elem_of_In in Hx.
    now apply (getitem_None_keys _ _ Hk).
  - apply NoDup_singleton.
Qed.
End Dict.

(** * Invariants of the dictionary *)

Section Preserves.
Context (P : CacheVariables -> Prop).

Lemma preserves_ret {A} (a : A) : preserves P (ret a).
Proof. intros cv H; exact H. Qed.

Lemma preserves_raise {A} e : preserves P (@raise A e).
Proof. intros cv H; exact H. Qed.

Lemma preserves_bind {A B} (m : M A) (f : A -> M B) :
  preserves P m -> (forall a, preserves P (f a)) -> preserves P (bind m f).
Proof.
  intros Hm Hf cv H. unfold bind. specialize (Hm cv H).
  destruct (m cv) as [[a|e] cv']; simpl in *; [now apply Hf | assumption].
Qed.

Lemma preserves_dependency self name : preserves P (dependency self name).
Proof.
  unfold dependency.
  destruct (dependencies self !! name); [apply preserves_ret | apply preserves_raise].
Qed.

Lemma preserves_option_value d name : preserves P (option_value d name).
Proof.
  unfold option_value.
  destruct (options d !! name); [apply preserves_ret | apply preserves_raise].
Qed.

Lemma preserves_bindirs0 d : preserves P (bindirs0 d).
Proof.
  unfold bindirs0.
  destruct (bindirs (cpp_info d)); [apply preserves_raise | apply preserves_ret].
Qed.

Lemma preserves_if {A} (b : bool) (m1 m2 : M A) :
  preserves P m1 -> preserves P m2 -> preserves P (if b then m1 else m2).
Proof. now destruct b. Qed.

(** When every assignment of normalised paths keeps [P], so does the body. *)
Hypothesis P_set :
  forall k p cv, P cv -> P (setitem k (replace backslash slash p) cv).

Lemma preserves_set k p :
  preserves P (set_cache_variable k (replace backslash slash p)).
Proof. intros cv H. now apply P_set. Qed.

Lemma preserves_generate_body self : preserves P (generate_body self).
Proof.
  unfold generate_body.
  repeat first
    [ apply preserves_bind; [|intros ?]
    | apply preserves_if
    | apply preserves_dependency
    | apply preserves_option_value
    | apply preserves_bindirs0
    | apply preserves_set
    | apply preserves_ret ].
Qed.
End Preserves.

Lemma generate_values_normalised self : values_normalised (snd (generate self)).
Proof.
  apply (preserves_generate_body values_normalised).
  - intros k p cv H k0 v0 [[_ ->]|Hold]%getitem_setitem.
    + apply replace_normalised.
    + now apply (H k0).
  - intros k v [=].
Qed.

Lemma generate_keys_NoDup self : NoDup (keys (snd (generate self))).
Proof.
  apply (preserves_generate_body (fun cv => NoDup (keys cv))).
  - intros k p cv. apply NoDup_keys_setitem.
  - apply NoDup_nil; reflexivity.
Qed.

(** * The paths through [generate] *)

Ltac unfold_generate :=
  unfold emitted, generate, generate_body, resolved_option, contains, bind,
    dependency, option_value, bindirs0, set_cache_variable, ret, raise in *.

(** Case analysis on every lookup the body makes, in program order. *)
Ltac walk :=
  repeat (match goal with
          | H : context [match ?x with _ => _ end] |- _ => destruct x eqn:?
          | |- context [match ?x with _ => _ end] => destruct x eqn:?
          end; simplify_eq/=).

Section Runs.
Import Examples.

Example generate_linux :
  generate linux =
  (Ok tt, [ ("machEmuBinDir", "/p/mach_emu/bin"); ("sdlBinDir", "/p/sdl/bin");
            ("sdlMixerBinDir", "/p/sdl_mixer/bin") ]).
Proof. vm_compute. reflexivity. Qed.

Example generate_windows :
  generate windows =
  (Ok tt, [ ("machEmuBinDir", "C:/p/mach_emu/bin"); ("sdlBinDir", "C:/p/sdl/bin");
            ("sdlMixerBinDir", "C:/p/sdl_mixer/bin"); ("zlibBinDir", "C:/p/zlib/bin") ]).
Proof. vm_compute. reflexivity. Qed.
End Runs.

(** The test on the operating system, as an equation between strings. *)
Ltac os_test :=
  repeat match goal with
         | H : String.eqb _ _ = true |- _ => apply String.eqb_eq in H
         | H : String.eqb _ _ = false |- _ => apply String.eqb_neq in H
         end.

(** The walk through the body, on the hypotheses alone. *)
Ltac walk_run :=
  repeat (match goal with
          | H : context [match ?x with _ => _ end] |- _ => destruct x eqn:?
          end; simplify_eq/=).


(** * The emitted variables *)

(** C1. On a run of [generate] that completes, [zlibBinDir] is in the
    dictionary if and only if the operating system is "Windows", option
    [with_zlib] of mach_emu resolved to true and option [shared] of zlib
    resolved to true; under each of the seven other combinations it is not. *)
Theorem zlibBinDir_iff (self : ConanFile) (cv : CacheVariables) :
  generate self = (Ok tt, cv) ->
  (contains "zlibBinDir" cv = true <->
   os (settings self) = "Windows" /\
   resolved_option self "mach_emu" "with_zlib" = Some true /\
   resolved_option self "zlib" "shared" = Some true).
Proof.
  intros Hrun. unfold_generate. walk; os_test.
  all: split; [intros ?; try discriminate; auto | intros (? & ? & ?); congruence].
Qed.

Lemma zlibBinDir_iff_witness :
  contains "zlibBinDir" (snd (generate Examples.windows)) = true <->
  os (settings Examples.windows) = "Windows" /\
  resolved_option Examples.windows "mach_emu" "with_zlib" = Some true /\
  resolved_option Examples.windows "zlib" "shared" = Some true.
Proof. apply (zlibBinDir_iff Examples.windows). vm_compute. reflexivity. Defined.

(** C2. For sdl and for sdl_mixer, each on its own: on a run of [generate]
    that completes, the variable is in the dictionary exactly when option
    [shared] of that dependency resolved to true; on every run it is absent
    unless [shared] resolved to true; and it is stored as soon as the
    statements up to its own can run and [shared] resolved to true. *)
Theorem multimedia_iff (self : ConanFile) :
  (forall cv, generate self = (Ok tt, cv) ->
     (contains "sdlBinDir" cv = true <-> resolved_option self "sdl" "shared" = Some true) /\
     (contains "sdlMixerBinDir" cv = true <->
      resolved_option self "sdl_mixer" "shared" = Some true)) /\
  (resolved_option self "sdl" "shared" <> Some true ->
   contains "sdlBinDir" (snd (generate self)) = false) /\
  (resolved_option self "sdl_mixer" "shared" <> Some true ->
   contains "sdlMixerBinDir" (snd (generate self)) = false) /\
  (mach_emu_ok self = true -> statement_ok self "sdl" = true ->
   resolved_option self "sdl" "shared" = Some true ->
   contains "sdlBinDir" (snd (generate self)) = true) /\
  (mach_emu_ok self = true -> statement_ok self "sdl" = true ->
   statement_ok self "sdl_mixer" = true ->
   resolved_option self "sdl_mixer" "shared" = Some true ->
   contains "sdlMixerBinDir" (snd (generate self)) = true).
Proof.
  split; [|split; [|split; [|split]]].
  - intros cv Hrun. unfold_generate. walk.
    all: repeat split; intros; congruence.
  - intros Hshared. unfold_generate. walk; congruence.
  - intros Hshared. unfold_generate. walk; congruence.
  - unfold mach_emu_ok, statement_ok. intros Hmach Hsdl Hshared.
    unfold_generate. walk; reflexivity.
  - unfold mach_emu_ok, statement_ok. intros Hmach Hsdl Hmixer Hshared.
    unfold_generate. walk; reflexivity.
Qed.

Lemma multimedia_iff_witness :
  contains "sdlBinDir" (snd (generate Examples.linux)) = true /\
  contains "sdlMixerBinDir" (snd (generate Examples.linux)) = true /\
  contains "sdlBinDir" (snd (generate Examples.static)) = false /\
  contains "sdlMixerBinDir" (snd (generate Examples.static)) = false.
Proof.
  destruct (multimedia_iff Examples.linux) as (_ & _ & _ & Hsdl & Hmixer).
  destruct (multimedia_iff Examples.static) as (_ & Hno_sdl & Hno_mixer & _).
  split; [|split; [|split]].
  - apply Hsdl; vm_compute; reflexivity.
  - apply Hmixer; vm_compute; reflexivity.
  - apply Hno_sdl. vm_compute. discriminate.
  - apply Hno_mixer. vm_compute. discriminate.
Defined.

(** C3. When mach_emu is not among the resolved dependencies, [generate]
    raises the error of the failed lookup with the dictionary still empty, and
    nothing is emitted. *)
Theorem missing_mach_emu (self : ConanFile) :
  dependencies self !! "mach_emu" = None ->
  generate self = (Raise (KeyError "mach_emu"), []) /\ emitted self = [].
Proof.
  intros Hnone. unfold emitted, generate, generate_body, bind, dependency.
  rewrite Hnone. split; reflexivity.
Qed.

Lemma missing_mach_emu_witness :
  generate (Examples.without "mach_emu") = (Raise (KeyError "mach_emu"), []) /\
  emitted (Examples.without "mach_emu") = [].
Proof. apply (missing_mach_emu (Examples.without "mach_emu")). vm_compute. reflexivity. Defined.

(** C7. On a run of [generate] that completes, [machEmuBinDir] is in the
    dictionary and its value is the first entry of mach_emu's [bindirs], in
    forward-slash form (the entry itself when it has no backslash); no option
    and no setting is a condition of it. *)
Theorem machEmuBinDir_always (self : ConanFile) (cv : CacheVariables) :
  generate self = (Ok tt, cv) ->
  exists d p ps,
    dependencies self !! "mach_emu" = Some d /\
    bindirs (cpp_info d) = p :: ps /\
    getitem "machEmuBinDir" cv = Some (replace backslash slash p) /\
    (normalised p -> getitem "machEmuBinDir" cv = Some p).
Proof.
  intros Hrun.
  assert (Hfirst : exists d p ps,
             dependencies self !! "mach_emu" = Some d /\
             bindirs (cpp_info d) = p :: ps /\
             getitem "machEmuBinDir" cv = Some (replace backslash slash p)).
  { unfold_generate. walk; eauto 8. }
  destruct Hfirst as (d & p & ps & Hd & Hp & Hv).
  exists d, p, ps. repeat split; try assumption.
  intros Hnorm. rewrite Hv. f_equal. now apply replace_id.
Qed.

Lemma machEmuBinDir_always_witness :
  exists d p ps,
    dependencies Examples.windows !! "mach_emu" = Some d /\
    bindirs (cpp_info d) = p :: ps /\
    getitem "machEmuBinDir" (snd (generate Examples.windows))
    = Some (replace backslash slash p) /\
    (normalised p -> getitem "machEmuBinDir" (snd (generate Examples.windows)) = Some p).
Proof. apply (machEmuBinDir_always Examples.windows). vm_compute. reflexivity. Defined.

(** Where a value of the dictionary comes from: the first binary directory of
    the dependency its key stands for, with [replace] applied. *)
Lemma generate_value_source (self : ConanFile) (k v : string) :
  getitem k (snd (generate self)) = Some v ->
  exists name d p ps,
    In (k, name) variables /\
    dependencies self !! name = Some d /\
    bindirs (cpp_info d) = p :: ps /\
    v = replace backslash slash p.
Proof.
  intros Hv. unfold_generate. unfold variables. walk; os_test.
  all: subst; eauto 15.
Qed.

(** C5. Every value that [generate] stores, on every run and for each of the
    four variables, is the first binary directory of its dependency with each
    backslash replaced by a forward slash and every other character kept; it
    contains no backslash, whatever the operating system. *)
Theorem values_forward_slash (self : ConanFile) (k v : string) :
  getitem k (snd (generate self)) = Some v ->
  normalised v /\
  exists name d p ps,
    In (k, name) variables /\
    dependencies self !! name = Some d /\
    bindirs (cpp_info d) = p :: ps /\
    String.length v = String.length p /\
    forall i, String.get i v
              = (fun c => if Ascii.eqb c backslash then slash else c) <$> String.get i p.
Proof.
  intros Hv. split.
  - exact (generate_values_normalised self k v Hv).
  - destruct (generate_value_source self k v Hv) as (name & d & p & ps & Hk & Hd & Hp & ->).
    exists name, d, p, ps. repeat split; try assumption.
    + apply replace_length.
    + intros i. apply replace_get.
Qed.

Lemma values_forward_slash_witness :
  normalised "C:/p/zlib/bin" /\
  exists name d p ps,
    In ("zlibBinDir", name) variables /\
    dependencies Examples.windows !! name = Some d /\
    bindirs (cpp_info d) = p :: ps /\
    String.length "C:/p/zlib/bin" = String.length p /\
    forall i, String.get i "C:/p/zlib/bin"
              = (fun c => if Ascii.eqb c backslash then slash else c) <$> String.get i p.
Proof.
  apply (values_forward_slash Examples.windows "zlibBinDir" "C:/p/zlib/bin").
  vm_compute. reflexivity.
Defined.

(** * Absent and incomplete metadata *)

(** C4, as stated, fails: with mach_emu resolved and sdl absent from the
    dependencies, [generate] raises at [self.dependencies["sdl"]]. *)
Lemma absent_sdl_raises :
  is_Some (dependencies (Examples.without "sdl") !! "mach_emu") /\
  dependencies (Examples.without "sdl") !! "sdl" = None /\
  generate (Examples.without "sdl")
  = (Raise (KeyError "sdl"), [("machEmuBinDir", "/p/mach_emu/bin")]) /\
  fst (generate (Examples.without "sdl")) <> Ok tt.
Proof.
  split; [|split; [|split]].
  - vm_compute. eauto.
  - vm_compute. reflexivity.
  - vm_compute. reflexivity.
  - vm_compute. discriminate.
Qed.

(** C4, amended. With mach_emu resolved and its first binary directory
    there: an absent sdl, and after a sound sdl an absent sdl_mixer, make
    [generate] raise the error of the failed lookup; an absent zlib, after
    sound sdl and sdl_mixer, makes it raise only on Windows with [with_zlib]
    true, and otherwise the run completes and emits no [zlibBinDir]. *)
Theorem absent_dependency (self : ConanFile) (m : Dependency) (p : string) (ps : list string) :
  dependencies self !! "mach_emu" = Some m ->
  bindirs (cpp_info m) = p :: ps ->
  (dependencies self !! "sdl" = None ->
   fst (generate self) = Raise (KeyError "sdl")) /\
  (statement_ok self "sdl" = true ->
   dependencies self !! "sdl_mixer" = None ->
   fst (generate self) = Raise (KeyError "sdl_mixer")) /\
  (statement_ok self "sdl" = true ->
   statement_ok self "sdl_mixer" = true ->
   dependencies self !! "zlib" = None ->
   if String.eqb (os (settings self)) "Windows" then
     match options m !! "with_zlib" with
     | Some true => fst (generate self) = Raise (KeyError "zlib")
     | Some false =>
         fst (generate self) = Ok tt /\ contains "zlibBinDir" (emitted self) = false
     | None => fst (generate self) = Raise (ConanException "with_zlib")
     end
   else fst (generate self) = Ok tt /\ contains "zlibBinDir" (emitted self) = false).
Proof.
  intros Hm Hp. unfold statement_ok. unfold_generate. rewrite Hm, Hp. simpl.
  split; [|split].
  - intros ->. reflexivity.
  - intros Hsdl ->. walk; reflexivity.
  - intros Hsdl Hmixer ->. walk; try split; reflexivity.
Qed.

Lemma absent_dependency_witness :
  fst (generate (Examples.without "zlib")) = Ok tt /\
  contains "zlibBinDir" (emitted (Examples.without "zlib")) = false.
Proof.
  destruct (absent_dependency (Examples.without "zlib")
              (Examples.dep [("with_zlib", true)] ["/p/mach_emu/bin"])
              "/p/mach_emu/bin" [] eq_refl eq_refl) as (_ & _ & Hzlib).
  apply Hzlib; vm_compute; reflexivity.
Defined.

(** C6, as stated, fails: a run that completes can store an empty value.
    Here the first binary directory of mach_emu is the empty string. *)
Lemma empty_value_emitted :
  generate Examples.empty_path = (Ok tt, [("machEmuBinDir", "")]) /\
  getitem "machEmuBinDir" (emitted Examples.empty_path) = Some "".
Proof. split; vm_compute; reflexivity. Qed.

(** C6, amended. On a run of [generate] that completes, each key is in the
    dictionary at most once, and the value of a key that is present is the
    normalised first binary directory of its dependency: it is empty only
    when that directory is the empty string. *)
Theorem keys_once_values_paths (self : ConanFile) (cv : CacheVariables) :
  generate self = (Ok tt, cv) ->
  NoDup (keys cv) /\
  forall k v, getitem k cv = Some v ->
    exists name d p ps,
      In (k, name) variables /\
      dependencies self !! name = Some d /\
      bindirs (cpp_info d) = p :: ps /\
      v = replace backslash slash p /\
      (v = "" <-> p = "").
Proof.
  intros Hrun.
  pose proof (generate_keys_NoDup self) as Hnodup.
  pose proof (generate_value_source self) as Hsource.
  rewrite Hrun in Hnodup, Hsource. simpl in Hnodup, Hsource.
  split; [exact Hnodup|].
  intros k v Hv.
  destruct (Hsource k v Hv) as (name & d & p & ps & Hk & Hd & Hp & ->).
  exists name, d, p, ps. repeat split; try assumption.
  - now intros H%replace_empty.
  - now intros ->.
Qed.

Lemma keys_once_values_paths_witness :
  NoDup (keys (snd (generate Examples.windows))) /\
  forall k v, getitem k (snd (generate Examples.windows)) = Some v ->
    exists name d p ps,
      In (k, name) variables /\
      dependencies Examples.windows !! name = Some d /\
      bindirs (cpp_info d) = p :: ps /\
      v = replace backslash slash p /\
      (v = "" <-> p = "").
Proof. apply (keys_once_values_paths Examples.windows). vm_compute. reflexivity. Defined.



(** * What a run depends on *)

(** [generate] is a function of what [reads] collects. *)
Lemma generate_reads (self self' : ConanFile) :
  reads self = reads self' -> generate self = generate self'.
Proof.
  unfold reads, read_of. simpl. intros [= Hos Hm Hs Hx Hz].
  unfold_generate. rewrite Hos.
  repeat match goal with
         | H : _ <$> ?x = _ <$> ?y |- _ => destruct x, y; simplify_eq/=
         | H : head ?x = head ?y |- _ => destruct x, y; simplify_eq/=
         | H : options _ !! _ = options _ !! _ |- _ => rewrite H; clear H
         end.
  all: reflexivity.
Qed.

(** The lookups of [generate] after the zlib metadata and mach_emu's
    [with_zlib] were replaced: only those two have changed. *)
Lemma set_zlib_lookup (self : ConanFile) (z : option Dependency) (w : option bool)
    (name : string) :
  name <> "zlib" ->
  dependencies (set_option "mach_emu" "with_zlib" w (set_dependency "zlib" z self)) !! name
  = (fun d => {| options := if String.eqb name "mach_emu"
                            then partial_alter (fun _ => w) "with_zlib" (options d)
                            else options d;
                 cpp_info := cpp_info d |}) <$> dependencies self !! name.
Proof.
  intros Hname. unfold set_option, set_dependency. simpl.
  destruct (String.eqb_spec name "mach_emu") as [->|Hne].
  - rewrite lookup_alter_eq, lookup_partial_alter_ne by discriminate. reflexivity.
  - rewrite lookup_alter_ne, lookup_partial_alter_ne by congruence.
    destruct (dependencies self !! name) as [[]|]; reflexivity.
Qed.

(** C10. Off Windows, [generate] reads neither mach_emu's [with_zlib] nor
    anything of zlib: replacing or removing either leaves the outcome and the
    dictionary unchanged, so their absence raises nothing and their values
    change nothing. *)
Theorem zlib_unread_off_windows (self : ConanFile) (z : option Dependency) (w : option bool) :
  os (settings self) <> "Windows" ->
  generate (set_option "mach_emu" "with_zlib" w (set_dependency "zlib" z self))
  = generate self.
Proof.
  intros Hos%String.eqb_neq.
  unfold generate, generate_body, dependency.
  rewrite !set_zlib_lookup by discriminate.
  change (os (settings (set_option "mach_emu" "with_zlib" w (set_dependency "zlib" z self))))
    with (os (settings self)).
  rewrite Hos. simpl.
  unfold bind, option_value, bindirs0, set_cache_variable, ret, raise.
  destruct (dependencies self !! "mach_emu") as [m|]; simpl; [|reflexivity].
  destruct (bindirs (cpp_info m)) as [|p ps]; simpl; [reflexivity|].
  destruct (dependencies self !! "sdl") as [s|]; simpl; [|reflexivity].
  destruct (options s !! "shared") as [[]|]; simpl; [| |reflexivity].
  - destruct (bindirs (cpp_info s)) as [|q qs]; simpl; [reflexivity|].
    destruct (dependencies self !! "sdl_mixer") as [x|]; simpl; [|reflexivity].
    destruct (options x !! "shared") as [[]|]; simpl; [| |reflexivity].
    + destruct (bindirs (cpp_info x)); reflexivity.
    + reflexivity.
  - destruct (dependencies self !! "sdl_mixer") as [x|]; simpl; [|reflexivity].
    destruct (options x !! "shared") as [[]|]; simpl; [| |reflexivity].
    + destruct (bindirs (cpp_info x)); reflexivity.
    + reflexivity.
Qed.

Lemma zlib_unread_off_windows_witness :
  generate (set_option "mach_emu" "with_zlib" None
              (set_dependency "zlib" None Examples.linux))
  = generate Examples.linux.
Proof. apply (zlib_unread_off_windows Examples.linux None None). discriminate. Defined.

(** * The whole run of [generate] *)

Ltac unfold_closed_form :=
  unfold assignments, entry, would_emit, mach_emu_ok, zlib_ok, statement_ok in *;
  unfold_generate.

(** Picks, entry by entry, the elements of the longer list. *)
Ltac pick_sublist :=
  first [ apply sublist_nil
        | apply sublist_skip; pick_sublist
        | apply sublist_cons; pick_sublist ].

(** X1. On a run of [generate] that completes, the dictionary is exactly the
    list of the four assignments under their guards, in the order of the
    source: no other key, no other order. *)
Theorem generate_Ok_exact (self : ConanFile) (cv : CacheVariables) :
  generate self = (Ok tt, cv) -> cv = assignments self.
Proof.
  intros Hrun. unfold_generate. walk.
  all: unfold assignments, entry, would_emit, resolved_option; simpl.
  all: repeat match goal with H : _ = _ |- _ => rewrite H end; reflexivity.
Qed.

Lemma generate_Ok_exact_witness :
  [ ("machEmuBinDir", "C:/p/mach_emu/bin"); ("sdlBinDir", "C:/p/sdl/bin");
    ("sdlMixerBinDir", "C:/p/sdl_mixer/bin"); ("zlibBinDir", "C:/p/zlib/bin") ]
  = assignments Examples.windows.
Proof. apply (generate_Ok_exact Examples.windows). vm_compute. reflexivity. Defined.

(** X2. [generate] completes exactly when each of its four statements can
    run: mach_emu has a first binary directory, sdl and sdl_mixer are resolved
    with a [shared] option and a binary directory when shared, and the zlib
    statement is sound. *)
Theorem generate_completes_iff (self : ConanFile) :
  fst (generate self) = Ok tt <->
  mach_emu_ok self && statement_ok self "sdl" && statement_ok self "sdl_mixer"
  && zlib_ok self = true.
Proof.
  unfold_closed_form. simpl. walk; split; intros; congruence.
Qed.

(** X3. On every run of [generate], completed or not, the keys of the
    dictionary are some of the four variables, each at most once and in the
    order of the source. *)
Theorem keys_in_source_order (self : ConanFile) :
  sublist (keys (snd (generate self)))
          ["machEmuBinDir"; "sdlBinDir"; "sdlMixerBinDir"; "zlibBinDir"].
Proof.
  unfold_generate. walk; pick_sublist.
Qed.

(** * What [generate] reads and what it leaves unread *)

(** The four lookups of [generate], taken apart before the body is walked. *)
Ltac lookups self :=
  destruct (dependencies self !! "mach_emu") as [?|] eqn:?;
  destruct (dependencies self !! "sdl") as [?|] eqn:?;
  destruct (dependencies self !! "sdl_mixer") as [?|] eqn:?;
  destruct (dependencies self !! "zlib") as [?|] eqn:?;
  simpl in *.

(** Case analysis on the lookups of two runs side by side: a lookup under
    [<$>] is taken apart before the [match] that reads it, innermost first. *)
Ltac walk_both :=
  repeat (first
            [ match goal with
              | |- context [_ <$> ?x] => destruct x eqn:?
              end
            | match goal with
              | |- context [match ?x with _ => _ end] =>
                  lazymatch x with
                  | context [match _ with _ => _ end] => fail
                  | _ => destruct x eqn:?
                  end
              end ];
          simplify_eq/=).

(** X4. The outcome of [generate] is fixed by the test of the operating
    system against "Windows" and, for mach_emu, sdl, sdl_mixer and zlib, by
    the options [shared] and [with_zlib] and the first binary directory: any
    other dependency, option, directory or setting may differ. *)
Theorem generate_read_set (self self' : ConanFile) :
  reads self = reads self' ->
  generate self = generate self' /\ emitted self = emitted self'.
Proof.
  intros Hreads%generate_reads. split; [exact Hreads|].
  unfold emitted. rewrite Hreads. reflexivity.
Qed.

Lemma generate_read_set_witness :
  generate Examples.linux = generate Cases.linux_more /\
  emitted Examples.linux = emitted Cases.linux_more.
Proof.
  apply (generate_read_set Examples.linux Cases.linux_more). vm_compute. reflexivity.
Defined.

(** X5. A dependency other than mach_emu whose [shared] resolved to false
    never has its [bindirs] read: any list, also the empty one, gives the same
    run. *)
Theorem static_bindirs_unread (self : ConanFile) (name : string) (dirs : list string) :
  name <> "mach_emu" ->
  resolved_option self name "shared" = Some false ->
  generate (set_bindirs name dirs self) = generate self.
Proof.
  intros Hname Hshared.
  unfold generate, generate_body, dependency, resolved_option, set_bindirs in *.
  simpl. rewrite !lookup_alter.
  unfold bind, option_value, bindirs0, set_cache_variable, ret, raise.
  repeat case_decide; simplify_eq/=; walk_both; reflexivity.
Qed.

Lemma static_bindirs_unread_witness :
  generate (set_bindirs "sdl" ["/p/sdl/lib"] Examples.static) = generate Examples.static.
Proof.
  apply (static_bindirs_unread Examples.static "sdl" ["/p/sdl/lib"]).
  - discriminate.
  - vm_compute. reflexivity.
Defined.

(** X6. When mach_emu's [with_zlib] resolved to false, [generate] reads
    nothing of zlib on any operating system: replacing or removing its
    metadata gives the same run. *)
Theorem zlib_unread_without_with_zlib (self : ConanFile) (z : option Dependency) :
  resolved_option self "mach_emu" "with_zlib" = Some false ->
  generate (set_dependency "zlib" z self) = generate self.
Proof.
  intros Hwith.
  unfold generate, generate_body, dependency, resolved_option, set_dependency in *.
  simpl. rewrite lookup_partial_alter_eq, !lookup_partial_alter_ne by discriminate.
  unfold bind, option_value, bindirs0, set_cache_variable, ret, raise.
  walk_both; reflexivity.
Qed.

Lemma zlib_unread_without_with_zlib_witness :
  generate (set_dependency "zlib" None Cases.windows_no_zlib)
  = generate Cases.windows_no_zlib.
Proof.
  apply (zlib_unread_without_with_zlib Cases.windows_no_zlib None).
  vm_compute. reflexivity.
Defined.

(** * How [generate] fails *)

(** X7. A multimedia dependency that is resolved but declares no [shared]
    option makes [generate] raise at the read of that option: sdl once
    mach_emu's statement has run, sdl_mixer once sdl's has. *)
Theorem undeclared_shared_raises (self : ConanFile) :
  mach_emu_ok self = true ->
  (forall d, dependencies self !! "sdl" = Some d -> options d !! "shared" = None ->
     fst (generate self) = Raise (ConanException "shared")) /\
  (forall d, statement_ok self "sdl" = true ->
     dependencies self !! "sdl_mixer" = Some d -> options d !! "shared" = None ->
     fst (generate self) = Raise (ConanException "shared")).
Proof.
  intros Hmach. split.
  - intros d Hd Hshared. unfold_closed_form. rewrite Hd, Hshared. walk; reflexivity.
  - intros d Hsdl Hd Hshared. unfold_closed_form. rewrite Hd, Hshared. walk; reflexivity.
Qed.

Lemma undeclared_shared_raises_witness :
  fst (generate Cases.sdl_no_shared) = Raise (ConanException "shared").
Proof.
  destruct (undeclared_shared_raises Cases.sdl_no_shared) as [Hsdl _].
  - vm_compute. reflexivity.
  - apply (Hsdl (Examples.dep [] ["/p/sdl/include"])); vm_compute; reflexivity.
Defined.

(** X8. Once mach_emu's statement has run, [machEmuBinDir] is in the
    dictionary with its value and stays there, also when a later statement
    raises. *)
Theorem machEmuBinDir_kept (self : ConanFile) (d : Dependency) (p : string)
    (ps : list string) :
  dependencies self !! "mach_emu" = Some d ->
  bindirs (cpp_info d) = p :: ps ->
  getitem "machEmuBinDir" (snd (generate self)) = Some (replace backslash slash p).
Proof.
  intros Hd Hp. unfold_generate. rewrite Hd, Hp. simpl. walk; reflexivity.
Qed.

Lemma machEmuBinDir_kept_witness :
  fst (generate Examples.sdl_no_bindirs) = Raise IndexError /\
  getitem "machEmuBinDir" (snd (generate Examples.sdl_no_bindirs))
  = Some (replace backslash slash "/p/mach_emu/bin").
Proof.
  split; [vm_compute; reflexivity|].
  apply (machEmuBinDir_kept Examples.sdl_no_bindirs
           (Examples.dep [("with_zlib", true)] ["/p/mach_emu/bin"]) "/p/mach_emu/bin" []);
    reflexivity.
Defined.

(** X9. A [KeyError] of [generate] names the first dependency, in the order
    of the source, that is subscripted and not resolved: mach_emu; sdl after a
    sound mach_emu; sdl_mixer after a sound sdl; zlib after a sound sdl_mixer,
    and only on Windows with [with_zlib] true. *)
Theorem KeyError_names_first_unresolved (self : ConanFile) :
  (fst (generate self) = Raise (KeyError "mach_emu") <->
   dependencies self !! "mach_emu" = None) /\
  (fst (generate self) = Raise (KeyError "sdl") <->
   mach_emu_ok self = true /\ dependencies self !! "sdl" = None) /\
  (fst (generate self) = Raise (KeyError "sdl_mixer") <->
   mach_emu_ok self = true /\ statement_ok self "sdl" = true /\
   dependencies self !! "sdl_mixer" = None) /\
  (fst (generate self) = Raise (KeyError "zlib") <->
   mach_emu_ok self = true /\ statement_ok self "sdl" = true /\
   statement_ok self "sdl_mixer" = true /\
   os (settings self) = "Windows" /\
   resolved_option self "mach_emu" "with_zlib" = Some true /\
   dependencies self !! "zlib" = None).
Proof.
  unfold_closed_form. simpl. lookups self; walk; os_test.
  all: repeat split; intros; destruct_and?; congruence.
Qed.

(** X10. Whatever [generate] raises is the error of one of its own reads: a
    [KeyError] for one of the four dependencies it names, a
    [ConanException] for [shared] or [with_zlib], or [IndexError]. *)
Theorem raise_cases (self : ConanFile) (e : exn) :
  fst (generate self) = Raise e ->
  In e [ KeyError "mach_emu"; KeyError "sdl"; KeyError "sdl_mixer"; KeyError "zlib";
         ConanException "shared"; ConanException "with_zlib"; IndexError ].
Proof.
  intros Hraise. unfold_generate. walk; simpl; tauto.
Qed.

Lemma raise_cases_witness :
  In IndexError
     [ KeyError "mach_emu"; KeyError "sdl"; KeyError "sdl_mixer"; KeyError "zlib";
       ConanException "shared"; ConanException "with_zlib"; IndexError ].
Proof. apply (raise_cases Examples.no_bindirs). vm_compute. reflexivity. Defined.

(** X11. Every value of the dictionary is a fixed point of the
    normalisation: replacing backslashes in it once more changes nothing. *)
Theorem values_fixed_by_replace (self : ConanFile) (k v : string) :
  getitem k (snd (generate self)) = Some v ->
  replace backslash slash v = v.
Proof.
  intros Hv. apply replace_id. exact (generate_values_normalised self k v Hv).
Qed.

Lemma values_fixed_by_replace_witness :
  replace backslash slash "C:/p/sdl/bin" = "C:/p/sdl/bin".
Proof.
  apply (values_fixed_by_replace Examples.windows "sdlBinDir"). vm_compute. reflexivity.
Defined.

(** * What is handed to the native build *)

(** Closes a goal about the closed form with the equations that the walk
    through the body has collected. *)
Ltac by_equations :=
  unfold assignments, entry, would_emit, mach_emu_ok, zlib_ok, statement_ok,
    empty_bindirs, resolved_option;
  repeat (match goal with H : _ = _ |- _ => rewrite H end; simpl).

(** X15. What [generate] emits, for every recipe: the four assignments under
    their guards when each statement can run, and nothing otherwise. *)
Theorem emitted_closed_form (self : ConanFile) :
  emitted self
  = if mach_emu_ok self && statement_ok self "sdl" && statement_ok self "sdl_mixer"
       && zlib_ok self
    then assignments self
    else [].
Proof.
  unfold emitted. destruct (generate self) as [r cv] eqn:Hrun.
  unfold_generate. walk_run; by_equations; reflexivity.
Qed.

(** X16. [generate] raises [IndexError] exactly when the first statement
    that cannot run is an assignment whose dependency has an empty
    [bindirs]. *)
Theorem IndexError_iff (self : ConanFile) :
  fst (generate self) = Raise IndexError <->
  empty_bindirs self "mach_emu" = true
  \/ (mach_emu_ok self = true /\
      would_emit self "sdl" = true /\ empty_bindirs self "sdl" = true)
  \/ (mach_emu_ok self = true /\ statement_ok self "sdl" = true /\
      would_emit self "sdl_mixer" = true /\ empty_bindirs self "sdl_mixer" = true)
  \/ (mach_emu_ok self = true /\ statement_ok self "sdl" = true /\
      statement_ok self "sdl_mixer" = true /\
      would_emit self "zlib" = true /\ empty_bindirs self "zlib" = true).
Proof.
  destruct (generate self) as [r cv] eqn:Hrun.
  unfold_generate. walk_run; by_equations.
  all: split; [intros ?; try discriminate; tauto
              | intros [?|[?|[?|?]]]; destruct_and?; congruence].
Qed.
